(** * Pretraining glue for the Mixtral model: batch construction, masked
      loss, training step and dataset selection.

    A shallow embedding of [examples/mixtral_mcore/pretrain_megatron_mixtral.py]
    and the properties of its batch-to-loss pipeline.

    - Integer tensors are lists of rows of [Z]; a raw record tags them with
      their dtype.  Floating-point tensors hold IEEE binary32 values, with
      the arithmetic of [SpecFloat] at precision 24.
    - Python exceptions are the [Raise] case of [result].
    - The data iterator is a Python object that [next] mutates: every
      function that receives it returns the iterator as it is afterwards.
    - The functions imported from the Megatron runtime and from
      [megatron_patch] are the fields of the class [Megatron]. *)

From Stdlib Require Import ZArith Bool List.
From Stdlib Require Import Floats.SpecFloat.
From stdpp Require Import base option list strings gmap.

(** ** Exceptions *)

Inductive exn : Type :=
| StopIteration
| KeyError (key : string)
| IndexError
| TypeError
| AssertionError
| RuntimeError.

Inductive result (A : Type) : Type :=
| Ok (a : A)
| Raise (e : exn).
Arguments Ok {A} a.
Arguments Raise {A} e.

#[global] Instance result_ret : MRet result := λ A a, Ok a.
#[global] Instance result_bind : MBind result :=
  λ A B f m, match m with Ok a => f a | Raise e => Raise e end.
#[global] Instance result_fmap : FMap result :=
  λ A B f m, match m with Ok a => Ok (f a) | Raise e => Raise e end.

Definition is_ok {A} (r : result A) : bool :=
  match r with Ok _ => true | Raise _ => false end.

(** ** Tensors *)

Inductive dtype : Type := torch_int32 | torch_int64.

#[global] Instance dtype_eq_dec : EqDecision dtype.
Proof. solve_decision. Defined.

(** A two-dimensional tensor, row by row. *)
Abbreviation tensor2 A := (list (list A)).
(** A three-dimensional tensor (the causal mask of the helper). *)
Abbreviation tensor3 A := (list (list (list A))).

(** An integer tensor as a dataset record holds it. *)
Record tensor : Type := Tensor { t_dtype : dtype; t_rows : tensor2 Z }.

(** [t.long()]: the same values as 64-bit integers. *)
Definition long (t : tensor) : tensor2 Z := t_rows t.

(** [t[:, k:]] *)
Definition cols_from {A} (k : nat) (t : tensor2 A) : tensor2 A :=
  drop k <$> t.

(** [t[:, :-1]] *)
Definition cols_but_last {A} (t : tensor2 A) : tensor2 A :=
  (λ r, take (length r - 1) r) <$> t.

(** [t.ne(v)] *)
Definition ne (t : tensor2 Z) (v : Z) : tensor2 bool :=
  (λ r : list Z, (λ x, negb (x =? v)%Z) <$> r) <$> t.

(** [t[b][i]] *)
Definition at2 {A} (t : tensor2 A) (b i : nat) : option A :=
  t !! b ≫= (.!! i).

(** [t] has [n] rows of [m] columns. *)
Definition has_shape {A} (t : tensor2 A) (n m : nat) : Prop :=
  length t = n ∧ Forall (λ r, length r = m) t.

(** [t.view(-1)] *)
Definition view_flat {A} (t : tensor2 A) : list A := concat t.

(** ** binary32 *)

Definition f32 : Type := spec_float.
Definition f32_prec : Z := 24.
Definition f32_emax : Z := 128.

Definition f32_add : f32 → f32 → f32 := SFadd f32_prec f32_emax.
Definition f32_mul : f32 → f32 → f32 := SFmul f32_prec f32_emax.
Definition f32_div : f32 → f32 → f32 := SFdiv f32_prec f32_emax.
Definition f32_of_Z (z : Z) : f32 := binary_normalize f32_prec f32_emax z 0 false.
Definition f32_zero : f32 := S754_zero false.

Definition f32_is_finite (x : f32) : bool :=
  match x with
  | S754_zero _ | S754_finite _ _ _ => true
  | S754_infinity _ | S754_nan => false
  end.

Definition f32_is_zero (x : f32) : bool :=
  match x with S754_zero _ => true | _ => false end.

(** [torch.sum] of a flat tensor, accumulated from the left. *)
Definition torch_sum (l : list f32) : f32 := fold_left f32_add l f32_zero.

(** [a * b] on flat tensors: element-wise, a one-element operand is
    broadcast, other length mismatches are refused. *)
Definition torch_mul (a b : list f32) : result (list f32) :=
  if decide (length a = length b) then Ok (zip_with f32_mul a b)
  else match a, b with
       | [x], _ => Ok (f32_mul x <$> b)
       | _, [y] => Ok ((λ x, f32_mul x y) <$> a)
       | _, _ => Raise RuntimeError
       end.

(** ** Records, iterators, dictionaries *)

(** A record of the dataset: field name to tensor. *)
Abbreviation raw_batch := (gmap string tensor).

(** [d[key]] on a dictionary. *)
Definition getitem {V} (d : gmap string V) (key : string) : result V :=
  match d !! key with Some v => Ok v | None => Raise (KeyError key) end.

(** [l[i]] on a list. *)
Definition getitem_list {V} (l : list V) (i : nat) : result V :=
  match l !! i with Some v => Ok v | None => Raise IndexError end.

(** The data iterator: the records it has still to yield. *)
Abbreviation iterator := (list raw_batch).

(** [next(it)]: the record and the iterator afterwards. *)
Definition next (it : iterator) : result raw_batch * iterator :=
  match it with
  | d :: it' => (Ok d, it')
  | [] => (Raise StopIteration, [])
  end.

(** ** Configuration *)

(** The fields of [get_args()] this file reads. *)
Record Args : Type := {
  reset_position_ids : bool;
  reset_attention_mask : bool;
  train_data_path : list string;
  max_padding_length : Z;
  dataset : string;
  split : string;
  seed : Z;
  mmap_warmup : bool
}.

Record Tokenizer : Type := { pad_token_id : Z }.

(** The five tensors [get_batch] returns, in its order. *)
Record training_batch : Type := {
  tokens : tensor2 Z;
  labels : tensor2 Z;
  loss_mask : tensor2 f32;
  attention_mask : tensor2 bool;
  position_ids : tensor2 Z
}.

(** ** The runtime this file is written against *)

Class Megatron (Dataset : Type) : Type := {
  get_args : Args;
  get_tokenizer : Tokenizer;
  (** [tensor_parallel.broadcast_data(keys, data, datatype)] *)
  broadcast_data :
    list string → option raw_batch → dtype → result (gmap string tensor);
  (** [get_ltor_masks_and_position_ids(data, eod_token, reset_position_ids,
      reset_attention_mask, eod_mask_loss)] *)
  get_ltor_masks_and_position_ids :
    tensor2 Z → Z → bool → bool → bool →
    result (tensor3 bool * tensor2 f32 * tensor2 Z);
  (** [average_losses_across_data_parallel_group(losses)] *)
  average_losses_across_data_parallel_group : list f32 → result (list f32);
  (** [os.path.isfile] *)
  isfile : string → bool;
  (** [build_pretrain_dataset_from_original(dataset)] *)
  build_pretrain_dataset_from_original :
    string → result (Dataset * Dataset * Dataset);
  (** [build_pretrain_dataset_from_idxmap(data_prefix, max_padding_length,
      dataset_type, splits_string, train_valid_test_num_samples, seed,
      skip_warmup)] *)
  build_pretrain_dataset_from_idxmap :
    list string → Z → string → string → list Z → Z → bool →
    result (Dataset * Dataset * Dataset)
}.

(** [model(tokens, position_ids, attention_mask, labels=labels)] *)
Definition Model : Type :=
  tensor2 Z → tensor2 Z → tensor2 bool → tensor2 Z → result (tensor2 f32).

(** The timers of [get_timers()]: the calls made on them, oldest first. *)
Inductive timer_event : Type :=
| TimerStart (name : string) (log_level : option nat)
| TimerStop (name : string).

(** ** The program *)

Section Program.
Context {Dataset : Type} `{!Megatron Dataset}.

Definition keys : list string := ["input_ids"; "labels"].
Definition datatype : dtype := torch_int64.

(** Lines 68-71: the record fetched, and the iterator afterwards. *)
Definition fetch (data_iterator : option iterator)
  : result (option raw_batch) * option iterator :=
  match data_iterator with
  | Some it => let '(d, it') := next it in (Some <$> d, Some it')
  | None => (Ok None, None)
  end.

(** Lines 72-86: from the fetched record to the five tensors. *)
Definition batch_of (data : option raw_batch) : result training_batch :=
  let args := get_args in
  let tokenizer := get_tokenizer in
  data_b ← broadcast_data keys data datatype;
  tokens_ ← long <$> getitem data_b "input_ids";
  let labels := cols_from 1 tokens_ in
  let tokens := cols_but_last tokens_ in
  let attention_mask := ne tokens (pad_token_id tokenizer) in
  '(_, loss_mask, position_ids) ←
    get_ltor_masks_and_position_ids
      tokens
      (pad_token_id tokenizer)
      (reset_position_ids args)
      (reset_attention_mask args)
      true;
  mret {| tokens := tokens; labels := labels; loss_mask := loss_mask;
          attention_mask := attention_mask; position_ids := position_ids |}.

Definition get_batch (data_iterator : option iterator)
  : result training_batch * option iterator :=
  let '(data, data_iterator') := fetch data_iterator in
  (data ≫= batch_of, data_iterator').

(** Lines 89-91: the loss of this worker. *)
Definition local_loss (loss_mask output_tensor : tensor2 f32) : result f32 :=
  let losses := output_tensor in
  let loss_mask := view_flat loss_mask in
  weighted ← torch_mul (view_flat losses) loss_mask;
  mret (f32_div (torch_sum weighted) (torch_sum loss_mask)).

Definition loss_func (loss_mask output_tensor : tensor2 f32)
  : result (f32 * gmap string f32) :=
  loss ← local_loss loss_mask output_tensor;
  averaged_loss ← average_losses_across_data_parallel_group [loss];
  logged ← getitem_list averaged_loss 0;
  mret (loss, {["lm loss" := logged]}).

(** What [forward_step] returns: the output tensor and
    [partial(loss_func, loss_mask)]. *)
Definition step_output : Type :=
  tensor2 f32 * (tensor2 f32 → result (f32 * gmap string f32)).

Definition forward_step (data_iterator : option iterator) (model : Model)
    (timers : list timer_event)
  : result step_output * option iterator * list timer_event :=
  let timers := timers ++ [TimerStart "batch-generator" (Some 2)] in
  let '(batch, data_iterator') := get_batch data_iterator in
  match batch with
  | Raise e => (Raise e, data_iterator', timers)
  | Ok b =>
      let timers := timers ++ [TimerStop "batch-generator"] in
      (output_tensor ←
         model (tokens b) (position_ids b) (attention_mask b) (labels b);
       mret (output_tensor, loss_func (loss_mask b)),
       data_iterator', timers)
  end.

Definition train_valid_test_datasets_provider
    (train_val_test_num_samples : list Z)
  : result (Dataset * Dataset * Dataset) :=
  let args := get_args in
  first ← getitem_list (train_data_path args) 0;
  if isfile first then
    build_pretrain_dataset_from_original (dataset args)
  else
    build_pretrain_dataset_from_idxmap
      (train_data_path args)
      (max_padding_length args)
      (dataset args)
      (split args)
      train_val_test_num_samples
      (seed args)
      (negb (mmap_warmup args)).

End Program.

(** ** The runtime as the specification describes it

    The collectives, the mask helper and the dataset builders are not part
    of the file embedded above.  This module gives them the behaviour the
    specification describes, so that the program can be run on concrete
    inputs and the statements about whole groups of workers can be made. *)

Module Reference.

(** *** Broadcast over a model-sharding group *)

(** Modelled from the spec: the body of [tensor_parallel.broadcast_data],
    which is missing.  For each requested key, in order, the tensor of the
    source record is taken; a record without a requested field is a hard
    failure (section 7, data errors), and so is a tensor that is not of the
    requested integer type (section 3). *)
Fixpoint pack (keys : list string) (d : raw_batch) (datatype : dtype)
  : result (gmap string tensor) :=
  match keys with
  | [] => Ok ∅
  | key :: keys' =>
      t ← getitem d key;
      if decide (t_dtype t = datatype) then
        out ← pack keys' d datatype;
        mret (<[key := t]> out)
      else Raise AssertionError
  end.

(** Modelled from the spec: [tensor_parallel.broadcast_data] as one rank
    sees it, which is missing.  Rank 0 of the group is the authoritative
    source and sends what it fetched; every other rank ignores its own
    argument (it passes [None]) and receives the source's content
    (sections 4.2 and 5). *)
Definition broadcast_data_at (tp_rank : nat) (tp_source : option raw_batch)
    (keys : list string) (data : option raw_batch) (datatype : dtype)
  : result (gmap string tensor) :=
  let held := if Nat.eqb tp_rank 0 then data else tp_source in
  match held with
  | Some d => pack keys d datatype
  | None => Raise TypeError
  end.

(** *** Masks and positions *)

Definition f32_one : f32 := f32_of_Z 1.

(** Modelled from the spec: the loss mask of
    [get_ltor_masks_and_position_ids], which is missing: 1 at every position,
    and 0 at the end-of-document tokens when [eod_mask_loss] is set. *)
Definition ltor_loss_mask (eod_token : Z) (eod_mask_loss : bool)
    (data : tensor2 Z) : tensor2 f32 :=
  (λ r : list Z, (λ x, if eod_mask_loss && (x =? eod_token)%Z
                       then f32_zero else f32_one) <$> r) <$> data.

(** Modelled from the spec: the position ids of
    [get_ltor_masks_and_position_ids], which is missing: 0, 1, 2, ... along
    a row, restarting at 0 immediately after an end-of-document token when
    the reset-positions policy is on (sections 4.2 and 8). *)
Fixpoint ltor_positions (eod_token : Z) (reset : bool) (pos : Z)
    (row : list Z) : list Z :=
  match row with
  | [] => []
  | x :: row' =>
      pos :: ltor_positions eod_token reset
               (if reset && (x =? eod_token)%Z then 0 else pos + 1)%Z row'
  end.

(** Modelled from the spec: the causal-mask policy inside
    [get_ltor_masks_and_position_ids], which is missing.  Position [i] of
    [row] may attend to position [j] when [j] is not after [i] and, under
    the reset-attention-mask policy, no end-of-document token lies at a
    position from [j] to [i - 1] (section 4.2). *)
Definition attends (eod_token : Z) (reset : bool) (row : list Z)
    (i j : nat) : bool :=
  (j <=? i)%nat
  && negb (reset && existsb (λ x, (x =? eod_token)%Z) (take (i - j) (drop j row))).

(** Modelled from the spec: the first result of
    [get_ltor_masks_and_position_ids], which is missing: per row, the
    causal mask, block-diagonal per document under the reset-attention-mask
    policy; an entry is [true] where attention is masked out. *)
Definition ltor_attention_mask (eod_token : Z) (reset : bool)
    (data : tensor2 Z) : tensor3 bool :=
  (λ row,
     (λ i, (λ j, negb (attends eod_token reset row i j))
             <$> seq 0 (length row))
       <$> seq 0 (length row))
    <$> data.

(** Modelled from the spec: [get_ltor_masks_and_position_ids], which is
    missing, as the triple of the three parts above. *)
Definition get_ltor_masks_and_position_ids_model (data : tensor2 Z)
    (eod_token : Z) (reset_position_ids reset_attention_mask
     eod_mask_loss : bool)
  : result (tensor3 bool * tensor2 f32 * tensor2 Z) :=
  Ok (ltor_attention_mask eod_token reset_attention_mask data,
      ltor_loss_mask eod_token eod_mask_loss data,
      ltor_positions eod_token reset_position_ids 0 <$> data).

(** *** Averaging over a data-parallel group *)

(** Modelled from the spec: the all-reduce inside
    [average_losses_across_data_parallel_group], which is missing: the sum
    of the workers' tensors, element by element, in rank order. *)
Definition all_reduce_sum (contribs : list (list f32)) : list f32 :=
  match contribs with
  | [] => []
  | c :: contribs' => fold_left (zip_with f32_add) contribs' c
  end.

(** Modelled from the spec: [average_losses_across_data_parallel_group] as
    one rank sees it, which is missing: an all-reduce mean over the
    data-parallel group, every worker's value counted once and the sum
    divided by the number of workers (section 4.3).  [dp_contribs] holds
    what every rank of the group contributes; the slot of this rank is
    filled with its argument. *)
Definition average_losses_at (dp_rank : nat) (dp_contribs : list (list f32))
    (losses : list f32) : result (list f32) :=
  let contribs := <[dp_rank := losses]> dp_contribs in
  let world_size := f32_of_Z (Z.of_nat (length contribs)) in
  Ok ((λ x, f32_div x world_size) <$> all_reduce_sum contribs).

(** *** Dataset builders *)

(** Modelled from the spec: the two builders of [megatron_patch.data],
    which are missing, reduced to their interface (section 6): a dataset
    remembers the call that built it and which of the three splits it is. *)
Inductive builder_call : Type :=
| FromOriginal (dataset : string)
| FromIdxmap (data_prefix : list string) (max_padding_length : Z)
    (dataset_type : string) (splits_string : string)
    (train_valid_test_num_samples : list Z) (seed : Z) (skip_warmup : bool).

Inductive split_name : Type := Train | Valid | Test.

Definition dataset_handle : Type := builder_call * split_name.

Definition built (c : builder_call)
  : result (dataset_handle * dataset_handle * dataset_handle) :=
  Ok ((c, Train), (c, Valid), (c, Test)).

(** *** One worker's view of the cluster *)

Record view : Type := {
  v_args : Args;
  v_tokenizer : Tokenizer;
  v_tp_rank : nat;
  v_tp_source : option raw_batch;
  v_dp_rank : nat;
  v_dp_contribs : list (list f32);
  v_files : list string
}.

Definition runtime (v : view) : Megatron dataset_handle := {|
  get_args := v_args v;
  get_tokenizer := v_tokenizer v;
  broadcast_data := broadcast_data_at (v_tp_rank v) (v_tp_source v);
  get_ltor_masks_and_position_ids := get_ltor_masks_and_position_ids_model;
  average_losses_across_data_parallel_group :=
    average_losses_at (v_dp_rank v) (v_dp_contribs v);
  isfile := λ p, bool_decide (p ∈ v_files v);
  build_pretrain_dataset_from_original := λ ds, built (FromOriginal ds);
  build_pretrain_dataset_from_idxmap :=
    λ p m ds sp n sd sk, built (FromIdxmap p m ds sp n sd sk)
|}.

Definition at_tp_rank (v : view) (r : nat) (src : option raw_batch) : view :=
  {| v_args := v_args v; v_tokenizer := v_tokenizer v;
     v_tp_rank := r; v_tp_source := src;
     v_dp_rank := v_dp_rank v; v_dp_contribs := v_dp_contribs v;
     v_files := v_files v |}.

Definition at_dp_rank (v : view) (r : nat) (cs : list (list f32)) : view :=
  {| v_args := v_args v; v_tokenizer := v_tokenizer v;
     v_tp_rank := v_tp_rank v; v_tp_source := v_tp_source v;
     v_dp_rank := r; v_dp_contribs := cs;
     v_files := v_files v |}.

(** *** Whole groups *)

(** What rank 0 of a model-sharding group fetches in this step. *)
Definition source_record (its : list (option iterator)) : option raw_batch :=
  match its with
  | Some (d :: _) :: _ => Some d
  | _ => None
  end.

(** One call of [get_batch] on every rank of a model-sharding group, rank 0
    first; [its] is the argument each rank passes. *)
Definition tp_group_get_batch (v : view) (its : list (option iterator))
  : list (result training_batch * option iterator) :=
  imap (λ r it, @get_batch _ (runtime (at_tp_rank v r (source_record its))) it)
       its.

(** What a worker contributes to the all-reduce: its local loss. *)
Definition contribution (input : tensor2 f32 * tensor2 f32) : list f32 :=
  match local_loss input.1 input.2 with
  | Ok l => [l]
  | Raise _ => []
  end.

(** One call of [loss_func] on every worker of a data-parallel group, rank 0
    first; [inputs] is each worker's loss mask and output tensor. *)
Definition dp_group_loss_func (v : view)
    (inputs : list (tensor2 f32 * tensor2 f32))
  : list (result (f32 * gmap string f32)) :=
  imap (λ r input,
          @loss_func _ (runtime (at_dp_rank v r (contribution <$> inputs)))
                     input.1 input.2)
       inputs.

End Reference.

(** ** The masked mean as the specification words it *)

(** The sum of [f 0], ..., [f (n - 1)], in that order. *)
Fixpoint sum_upto (n : nat) (f : nat → f32) : f32 :=
  match n with
  | O => f32_zero
  | S n' => f32_add (sum_upto n' f) (f n')
  end.

(** "sum(loss * mask) / sum(mask)" over the [length mask] flattened
    positions. *)
Definition masked_mean (losses mask : list f32) : f32 :=
  f32_div
    (sum_upto (length mask)
              (λ k, f32_mul (nth k losses f32_zero) (nth k mask f32_zero)))
    (sum_upto (length mask) (λ k, nth k mask f32_zero)).

(** The contract of the mask helper that [get_batch] relies on when it sets
    [eod_mask_loss]: the loss mask has the shape of the data and is 0 at
    every end-of-document token. *)
Definition masks_eod {Dataset} `{!Megatron Dataset} : Prop :=
  ∀ data eod_token rp ra m lm pid b i,
    get_ltor_masks_and_position_ids data eod_token rp ra true
      = Ok (m, lm, pid) →
    at2 data b i = Some eod_token →
    at2 lm b i = Some f32_zero.

(** ** Concrete inputs *)

Module Sample.
Import Reference.

Definition args : Args := {|
  reset_position_ids := true;
  reset_attention_mask := true;
  train_data_path := ["corpus.json"; "shard_b"];
  max_padding_length := 8;
  dataset := "LLama-Pretrain-Raw";
  split := "949,50,1";
  seed := 1234;
  mmap_warmup := false
|}.

(** The only worker of its groups: rank 0, pad token 0, one file on disk. *)
Definition alone : view := {|
  v_args := args;
  v_tokenizer := {| pad_token_id := 0 |};
  v_tp_rank := 0;
  v_tp_source := None;
  v_dp_rank := 0;
  v_dp_contribs := [[]];
  v_files := ["corpus.json"]
|}.

(** The same worker with no file at the first data path. *)
Definition no_file : view := {|
  v_args := args;
  v_tokenizer := {| pad_token_id := 0 |};
  v_tp_rank := 0;
  v_tp_source := None;
  v_dp_rank := 0;
  v_dp_contribs := [[]];
  v_files := []
|}.

(** Two sequences of four tokens, 0 being the pad token. *)
Definition ids : tensor :=
  Tensor torch_int64 [[5; 6; 0; 7]; [1; 0; 0; 2]]%Z.

Definition record : raw_batch :=
  <["input_ids" := ids]> (<["labels" := ids]> ∅).

Definition record_ids_only : raw_batch := <["input_ids" := ids]> ∅.

(** A model that charges every token a loss of 1. *)
Definition unit_model : Model :=
  λ tokens _ _ _, Ok ((λ r : list Z, (λ _, f32_one) <$> r) <$> tokens).

Definition F (z : Z) : f32 := f32_of_Z z.

Definition losses_1234 : tensor2 f32 := [[F 1; F 2; F 3; F 4]].
Definition mask_1010 : tensor2 f32 := [[F 1; F 0; F 1; F 0]].
Definition losses_44 : tensor2 f32 := [[F 4; F 4]].
Definition mask_11 : tensor2 f32 := [[F 1; F 1]].
Definition mask_00 : tensor2 f32 := [[F 0; F 0]].
Definition losses_12 : tensor2 f32 := [[F 1; F 2]].

End Sample.

(** ** The loss reducer with the order of summation left open

    The source calls [torch.sum] and [Tensor.sum]; in which order and
    grouping they add is not fixed by the source.  [torch_sum] above adds
    from the left.  Here the routine is an argument, and [loss_func] is the
    instance at [torch_sum]. *)

(** [sums_to l v]: adding up the elements of [l], in some order and some
    grouping, starting from the elements themselves or from 0, gives [v]. *)
Inductive sums_to : list f32 → f32 → Prop :=
| sums_nil : sums_to [] f32_zero
| sums_one x : sums_to [x] x
| sums_app l1 l2 v1 v2 :
    sums_to l1 v1 → sums_to l2 v2 → sums_to (l1 ++ l2) (f32_add v1 v2)
| sums_perm l l' v : l ≡ₚ l' → sums_to l v → sums_to l' v.

(** A summation routine adds up what it is given, in an order of its own. *)
Definition summation (sum : list f32 → f32) : Prop :=
  ∀ l, sums_to l (sum l).

(** Lines 89-91, summing with [sum]. *)
Definition local_loss_by (sum : list f32 → f32)
    (loss_mask output_tensor : tensor2 f32) : result f32 :=
  let losses := output_tensor in
  let loss_mask := view_flat loss_mask in
  weighted ← torch_mul (view_flat losses) loss_mask;
  mret (f32_div (sum weighted) (sum loss_mask)).

(** Lines 88-96, summing with [sum]. *)
Definition loss_func_by {Dataset} `{!Megatron Dataset}
    (sum : list f32 → f32) (loss_mask output_tensor : tensor2 f32)
  : result (f32 * gmap string f32) :=
  loss ← local_loss_by sum loss_mask output_tensor;
  averaged_loss ← average_losses_across_data_parallel_group [loss];
  logged ← getitem_list averaged_loss 0;
  mret (loss, {["lm loss" := logged]}).

(** The entry of [t] at the flattened position [k], the rows of [m] columns
    laid end to end: row [k / m], column [k mod m]. *)
Definition flat_entry (t : tensor2 f32) (m k : nat) : f32 :=
  default f32_zero (at2 t (k / m) (k mod m)).

(** "loss * mask" at each of the flattened positions 0, ..., [count - 1],
    for a mask of [m] columns and losses of [m'] columns. *)
Definition weighted_terms (mask : tensor2 f32) (m : nat)
    (out : tensor2 f32) (m' : nat) (count : nat) : list f32 :=
  (λ k, f32_mul (flat_entry out m' k) (flat_entry mask m k)) <$> seq 0 count.

(** The mask at each of the flattened positions 0, ..., [count - 1]. *)
Definition mask_terms (mask : tensor2 f32) (m : nat) (count : nat)
  : list f32 :=
  flat_entry mask m <$> seq 0 count.

(** "sum(loss * mask) / sum(mask)" over all [count] flattened positions:
    [v] is a sum of all the weighted terms divided by a sum of all the mask
    entries. *)
Definition is_masked_mean (mask : tensor2 f32) (m : nat)
    (out : tensor2 f32) (m' : nat) (count : nat) (v : f32) : Prop :=
  ∃ numer denom,
    sums_to (weighted_terms mask m out m' count) numer
    ∧ sums_to (mask_terms mask m count) denom
    ∧ v = f32_div numer denom.

(** The natural number a binary32 value stands for, when it is one. *)
Definition count_of (x : f32) : nat :=
  match x with
  | S754_finite false mx ex => Z.to_nat (Z.shiftl (Zpos mx) ex)
  | _ => 0
  end.

(** [x] is a natural number, held exactly. *)
Definition whole (x : f32) : Prop := x = f32_of_Z (Z.of_nat (count_of x)).

(** ** Inputs at the edges *)

Module Edge.
Import Reference Sample.

(** A model whose forward pass fails. *)
Definition broken_model : Model := λ _ _ _ _, Raise RuntimeError.

(** The sequences of [Sample.ids] with another last token. *)
Definition ids_other_last : tensor :=
  Tensor torch_int64 [[5; 6; 0; 9]; [1; 0; 0; 3]]%Z.

Definition record_other_last : raw_batch :=
  <["input_ids" := ids_other_last]> (<["labels" := ids_other_last]> ∅).

(** The worker of [Sample.alone] with no data path configured. *)
Definition no_paths : view := {|
  v_args := {| reset_position_ids := true; reset_attention_mask := true;
               train_data_path := []; max_padding_length := 8;
               dataset := "LLama-Pretrain-Raw"; split := "949,50,1";
               seed := 1234; mmap_warmup := false |};
  v_tokenizer := {| pad_token_id := 0 |};
  v_tp_rank := 0;
  v_tp_source := None;
  v_dp_rank := 0;
  v_dp_contribs := [[]];
  v_files := []
|}.

(** [Sample.record] with other contents under [labels]. *)
Definition record_other_labels : raw_batch :=
  <["input_ids" := ids]> (<["labels" := ids_other_last]> ∅).

Definition losses_1_inf : tensor2 f32 := [[F 1; S754_infinity false]].
Definition mask_10 : tensor2 f32 := [[F 1; F 0]].
Definition mask_111 : tensor2 f32 := [[F 1; F 1; F 1]].
Definition mask_1 : tensor2 f32 := [[F 1]].
Definition losses_123 : tensor2 f32 := [[F 1; F 2; F 3]].

End Edge.

(** * Properties *)

(** ** Slices and element-wise comparison *)

Section Tensors.
Context {A : Type}.
Implicit Types (t : tensor2 A) (r : list A).

Lemma at2_cols_from k t b i : at2 (cols_from k t) b i = at2 t b (k + i).
Proof.
  unfold at2, cols_from. rewrite list_lookup_fmap.
  destruct (t !! b) as [r|]; simpl; [apply lookup_drop | done].
Qed.

Lemma at2_cols_but_last t b i r :
  t !! b = Some r → i < length r - 1 → at2 (cols_but_last t) b i = r !! i.
Proof.
  intros Hb Hi. unfold at2, cols_but_last.
  rewrite list_lookup_fmap, Hb. simpl. by apply lookup_take_lt.
Qed.

Lemma cols_from_shape t n m :
  has_shape t n (S m) → has_shape (cols_from 1 t) n m.
Proof.
  intros [Hn Hm]. split; unfold cols_from.
  - by rewrite length_fmap.
  - apply Forall_fmap. eapply Forall_impl; [exact Hm|].
    intros r Hr. simpl in *. rewrite length_drop. lia.
Qed.

Lemma cols_but_last_shape t n m :
  has_shape t n (S m) → has_shape (cols_but_last t) n m.
Proof.
  intros [Hn Hm]. split; unfold cols_but_last.
  - by rewrite length_fmap.
  - apply Forall_fmap. eapply Forall_impl; [exact Hm|].
    intros r Hr. simpl in *. rewrite length_take. lia.
Qed.

Lemma has_shape_row t n m b r :
  has_shape t n m → t !! b = Some r → length r = m.
Proof.
  intros [_ Hm] Hb. rewrite Forall_lookup in Hm. by eapply Hm.
Qed.

Lemma has_shape_at2 t n m b i :
  has_shape t n m → b < n → i < m → is_Some (at2 t b i).
Proof.
  intros Hs Hb Hi. unfold at2.
  assert (is_Some (t !! b)) as [r Hr].
  { apply lookup_lt_is_Some_2. destruct Hs as [-> _]. exact Hb. }
  rewrite Hr. simpl. apply lookup_lt_is_Some_2.
  by rewrite (has_shape_row _ _ _ _ _ Hs Hr).
Qed.

End Tensors.

Lemma at2_ne (t : tensor2 Z) v b i :
  at2 (ne t v) b i = (λ x, negb (x =? v)%Z) <$> at2 t b i.
Proof.
  unfold at2, ne. rewrite list_lookup_fmap.
  destruct (t !! b) as [r|]; simpl; [apply list_lookup_fmap | done].
Qed.

(** ** The batch constructor *)

Section GetBatch.
Context {Dataset : Type} `{!Megatron Dataset}.

Lemma fetch_some d its : fetch (Some (d :: its)) = (Ok (Some d), Some its).
Proof. reflexivity. Qed.

Lemma fetch_none : fetch None = (Ok None, None).
Proof. reflexivity. Qed.

Lemma fetch_exhausted : fetch (Some []) = (Raise StopIteration, Some []).
Proof. reflexivity. Qed.

(** A successful fetch takes the first record off a present iterator, and
    nothing when there is no iterator. *)
Lemma fetch_ok_inv data_iterator data it' :
  fetch data_iterator = (Ok data, it') →
  (data_iterator = None ∧ data = None ∧ it' = None)
  ∨ (∃ d its, data_iterator = Some (d :: its) ∧ data = Some d ∧ it' = Some its).
Proof.
  destruct data_iterator as [[|d its]|]; simpl; intros H; inversion H.
  - right. by exists d, its.
  - by left.
Qed.

(** The five tensors, once the collaborators have answered. *)
Lemma batch_of_ok data data_b t m lm pid :
  broadcast_data keys data datatype = Ok data_b →
  data_b !! "input_ids" = Some t →
  get_ltor_masks_and_position_ids
    (cols_but_last (t_rows t)) (pad_token_id get_tokenizer)
    (reset_position_ids get_args) (reset_attention_mask get_args) true
    = Ok (m, lm, pid) →
  batch_of data =
    Ok {| tokens := cols_but_last (t_rows t);
          labels := cols_from 1 (t_rows t);
          loss_mask := lm;
          attention_mask :=
            ne (cols_but_last (t_rows t)) (pad_token_id get_tokenizer);
          position_ids := pid |}.
Proof.
  intros Hb Hk Hh. unfold batch_of. rewrite Hb. simpl.
  unfold getitem. rewrite Hk. simpl. unfold long. by rewrite Hh.
Qed.

Lemma get_batch_ok data_iterator data it' data_b t m lm pid :
  fetch data_iterator = (Ok data, it') →
  broadcast_data keys data datatype = Ok data_b →
  data_b !! "input_ids" = Some t →
  get_ltor_masks_and_position_ids
    (cols_but_last (t_rows t)) (pad_token_id get_tokenizer)
    (reset_position_ids get_args) (reset_attention_mask get_args) true
    = Ok (m, lm, pid) →
  get_batch data_iterator =
    (Ok {| tokens := cols_but_last (t_rows t);
           labels := cols_from 1 (t_rows t);
           loss_mask := lm;
           attention_mask :=
             ne (cols_but_last (t_rows t)) (pad_token_id get_tokenizer);
           position_ids := pid |},
     it').
Proof.
  intros Hf Hb Hk Hh. unfold get_batch. rewrite Hf. simpl.
  by rewrite (batch_of_ok _ _ _ _ _ _ Hb Hk Hh).
Qed.

(** C1: for a raw record whose [input_ids] has shape (batch, seq_len + 1)
    and which the broadcast hands over unchanged, [get_batch] returns
    [tokens] equal to all but the last column and [labels] equal to all but
    the first column, both of shape (batch, seq_len), so that
    [labels[b][i] = input_ids[b][i+1]] (and [tokens[b][i] = input_ids[b][i]])
    at every valid position. *)
Theorem get_batch_causal_shift (d : raw_batch) its data_b t m lm pid n s :
  d !! "input_ids" = Some t →
  has_shape (t_rows t) n (S s) →
  broadcast_data keys (Some d) datatype = Ok data_b →
  data_b !! "input_ids" = Some t →
  get_ltor_masks_and_position_ids
    (cols_but_last (t_rows t)) (pad_token_id get_tokenizer)
    (reset_position_ids get_args) (reset_attention_mask get_args) true
    = Ok (m, lm, pid) →
  ∃ batch,
    get_batch (Some (d :: its)) = (Ok batch, Some its)
    ∧ tokens batch = cols_but_last (t_rows t)
    ∧ labels batch = cols_from 1 (t_rows t)
    ∧ has_shape (tokens batch) n s
    ∧ has_shape (labels batch) n s
    ∧ ∀ b i, b < n → i < s →
        ∃ x y, at2 (t_rows t) b i = Some x
               ∧ at2 (t_rows t) b (S i) = Some y
               ∧ at2 (tokens batch) b i = Some x
               ∧ at2 (labels batch) b i = Some y.
Proof.
  intros _ Hs Hb Hk Hh.
  eexists. split; [by eapply get_batch_ok; eauto using fetch_some|].
  simpl. split; [done|]. split; [done|].
  split; [by apply cols_but_last_shape|].
  split; [by apply cols_from_shape|].
  intros b i Hbn His.
  destruct (has_shape_at2 _ _ _ b i Hs) as [x Hx]; [lia..|].
  destruct (has_shape_at2 _ _ _ b (S i) Hs) as [y Hy]; [lia..|].
  exists x, y. split; [done|]. split; [done|]. split.
  - unfold at2 in Hx. destruct (t_rows t !! b) as [r|] eqn:Hr; [|done].
    rewrite (at2_cols_but_last _ _ _ r Hr); [done|].
    rewrite (has_shape_row _ _ _ _ _ Hs Hr). lia.
  - by rewrite at2_cols_from.
Qed.

(** C4: the attention mask [get_batch] returns is, element by element,
    [tokens[b][i] != pad_token_id]; of the three results of the mask helper
    only the loss mask and the position ids reach the batch, the helper's
    own mask [m] appears nowhere in it; and [forward_step] hands that same
    attention mask to the model. *)
Theorem get_batch_attention_mask data_iterator data it' data_b t m lm pid
    (model : Model) timers :
  fetch data_iterator = (Ok data, it') →
  broadcast_data keys data datatype = Ok data_b →
  data_b !! "input_ids" = Some t →
  get_ltor_masks_and_position_ids
    (cols_but_last (t_rows t)) (pad_token_id get_tokenizer)
    (reset_position_ids get_args) (reset_attention_mask get_args) true
    = Ok (m, lm, pid) →
  ∃ batch,
    get_batch data_iterator = (Ok batch, it')
    ∧ (∀ b i, at2 (attention_mask batch) b i
              = (λ x, negb (x =? pad_token_id get_tokenizer)%Z)
                  <$> at2 (tokens batch) b i)
    ∧ batch = {| tokens := cols_but_last (t_rows t);
                 labels := cols_from 1 (t_rows t);
                 loss_mask := lm;
                 attention_mask :=
                   ne (cols_but_last (t_rows t)) (pad_token_id get_tokenizer);
                 position_ids := pid |}
    ∧ (forward_step data_iterator model timers).1.1
      = (output_tensor ←
           model (tokens batch) pid
                 (ne (tokens batch) (pad_token_id get_tokenizer))
                 (labels batch);
         mret (output_tensor, loss_func lm)).
Proof.
  intros Hf Hb Hk Hh.
  pose proof (get_batch_ok _ _ _ _ _ _ _ _ Hf Hb Hk Hh) as Hg.
  eexists. split; [exact Hg|]. split; [|split; [reflexivity|]].
  - intros b i. simpl. apply at2_ne.
  - unfold forward_step. rewrite Hg. reflexivity.
Qed.

(** C10: [get_batch] calls the mask helper on [tokens] with the tokenizer's
    [pad_token_id] as end-of-document token, the two reset flags of the
    arguments, and [eod_mask_loss] fixed to [True]; the loss mask and the
    position ids of the batch are the helper's for that call.  With a
    helper that masks end-of-document tokens, every position whose token is
    [pad_token_id] has loss mask 0. *)
Theorem get_batch_masks_pad data_iterator data it' data_b t :
  masks_eod →
  fetch data_iterator = (Ok data, it') →
  broadcast_data keys data datatype = Ok data_b →
  data_b !! "input_ids" = Some t →
  is_ok (get_ltor_masks_and_position_ids
           (cols_but_last (t_rows t)) (pad_token_id get_tokenizer)
           (reset_position_ids get_args) (reset_attention_mask get_args) true)
    = true →
  ∃ batch,
    get_batch data_iterator = (Ok batch, it')
    ∧ (∃ m,
         get_ltor_masks_and_position_ids
           (tokens batch) (pad_token_id get_tokenizer)
           (reset_position_ids get_args) (reset_attention_mask get_args) true
         = Ok (m, loss_mask batch, position_ids batch))
    ∧ ∀ b i, at2 (tokens batch) b i = Some (pad_token_id get_tokenizer) →
             at2 (loss_mask batch) b i = Some f32_zero.
Proof.
  intros Hc Hf Hb Hk Hh.
  destruct (get_ltor_masks_and_position_ids _ _ _ _ _)
    as [[[m lm] pid]|] eqn:Hl; [|done].
  eexists. split; [by eapply get_batch_ok; eauto|]. simpl. split.
  - by exists m.
  - intros b i Hpad. by eapply Hc.
Qed.

End GetBatch.

(** ** Sums and quotients of binary32 values *)

Lemma sum_upto_ext n f g :
  (∀ k, k < n → f k = g k) → sum_upto n f = sum_upto n g.
Proof.
  induction n as [|n IH]; intros Hfg; simpl; [done|].
  rewrite IH by (intros k Hk; apply Hfg; lia).
  by rewrite Hfg by lia.
Qed.

Lemma torch_sum_snoc l x : torch_sum (l ++ [x]) = f32_add (torch_sum l) x.
Proof. unfold torch_sum. by rewrite fold_left_app. Qed.

(** [torch.sum] adds the elements position by position. *)
Lemma torch_sum_sum_upto l :
  torch_sum l = sum_upto (length l) (λ k, nth k l f32_zero).
Proof.
  induction l as [|x l IH] using rev_ind; [done|].
  rewrite torch_sum_snoc, length_app, Nat.add_1_r. simpl.
  rewrite app_nth2, Nat.sub_diag by lia. simpl. f_equal.
  rewrite IH. apply sum_upto_ext. intros k Hk. by rewrite app_nth1.
Qed.

Lemma nth_zip_with_f32_mul a b k :
  length a = length b → k < length b →
  nth k (zip_with f32_mul a b) f32_zero
  = f32_mul (nth k a f32_zero) (nth k b f32_zero).
Proof.
  revert b k. induction a as [|x a IH]; intros [|y b] k Hl Hk;
    simpl in *; try lia.
  destruct k as [|k]; [done|]. apply IH; lia.
Qed.

Lemma torch_mul_same_length a b :
  length a = length b → torch_mul a b = Ok (zip_with f32_mul a b).
Proof. intros Hl. unfold torch_mul. by rewrite decide_True. Qed.

(** The quotient by a zero is never a finite number. *)
Lemma f32_div_by_zero x z :
  f32_is_zero z = true → f32_is_finite (f32_div x z) = false.
Proof. destruct z; [|done..]. by destruct x. Qed.

(** ** The loss reducer *)

(** Lines 89-91 compute the masked mean of the specification. *)
Lemma local_loss_masked_mean (mask out : tensor2 f32) :
  length (view_flat out) = length (view_flat mask) →
  local_loss mask out = Ok (masked_mean (view_flat out) (view_flat mask)).
Proof.
  intros Hl. unfold local_loss.
  rewrite (torch_mul_same_length _ _ Hl). simpl. f_equal.
  unfold masked_mean. f_equal.
  - rewrite torch_sum_sum_upto, length_zip_with, Hl, Nat.min_id.
    apply sum_upto_ext. intros k Hk. by apply nth_zip_with_f32_mul.
  - apply torch_sum_sum_upto.
Qed.

Section LossFunc.
Context {Dataset : Type} `{!Megatron Dataset}.

Lemma loss_func_ok (mask out : tensor2 f32) loss a avg :
  local_loss mask out = Ok loss →
  average_losses_across_data_parallel_group [loss] = Ok (a :: avg) →
  loss_func mask out = Ok (loss, {["lm loss" := a]}).
Proof. intros Hl Ha. unfold loss_func. rewrite Hl. simpl. by rewrite Ha. Qed.

(** C3, as the code has it: when the loss mask sums to zero [loss_func]
    raises nothing of its own.  The division is carried out, the local loss
    is a NaN or an infinity, never 0 or another finite number, and it is
    returned like any other loss once the cross-worker averaging has
    answered. *)
Theorem loss_func_zero_mask (mask out : tensor2 f32) a avg :
  length (view_flat out) = length (view_flat mask) →
  f32_is_zero (torch_sum (view_flat mask)) = true →
  average_losses_across_data_parallel_group
    [masked_mean (view_flat out) (view_flat mask)] = Ok (a :: avg) →
  ∃ loss,
    loss_func mask out = Ok (loss, {["lm loss" := a]})
    ∧ f32_is_finite loss = false.
Proof.
  intros Hl Hz Ha. eexists.
  split; [by eapply loss_func_ok; [apply local_loss_masked_mean|]|].
  unfold masked_mean. apply f32_div_by_zero.
  by rewrite <- torch_sum_sum_upto.
Qed.

End LossFunc.

(** ** The training step *)

Section ForwardStep.
Context {Dataset : Type} `{!Megatron Dataset}.

(** The closure [forward_step] returns is [loss_func] with its first
    argument fixed. *)
Lemma forward_step_closure data_iterator (model : Model) timers out f :
  (forward_step data_iterator model timers).1.1 = Ok (out, f) →
  ∃ batch, (get_batch data_iterator).1 = Ok batch
           ∧ f = loss_func (loss_mask batch).
Proof.
  unfold forward_step. destruct (get_batch data_iterator) as [[b|e] it'];
    simpl; [|done].
  destruct (model _ _ _ _); simpl; [|done].
  intros [= _ <-]. by exists b.
Qed.

(** C7, as the code has it: a call of [forward_step] takes exactly one
    record off the iterator when there is one and nothing when there is
    none, builds the five tensors with [get_batch], and returns the model's
    output on ([tokens], [position_ids], [attention_mask], [labels])
    together with [loss_func] bound to the loss mask of this step, so that
    calling the closure on a tensor is calling [loss_func] on that loss
    mask and that tensor.  The only other effect is on the timers:
    "batch-generator" is started before the batch is built and stopped
    after it; nothing is retried. *)
Theorem forward_step_once data_iterator data it' data_b t m lm pid
    (model : Model) out timers :
  fetch data_iterator = (Ok data, it') →
  broadcast_data keys data datatype = Ok data_b →
  data_b !! "input_ids" = Some t →
  get_ltor_masks_and_position_ids
    (cols_but_last (t_rows t)) (pad_token_id get_tokenizer)
    (reset_position_ids get_args) (reset_attention_mask get_args) true
    = Ok (m, lm, pid) →
  model (cols_but_last (t_rows t)) pid
        (ne (cols_but_last (t_rows t)) (pad_token_id get_tokenizer))
        (cols_from 1 (t_rows t)) = Ok out →
  ((data_iterator = None ∧ it' = None)
   ∨ (∃ d its, data_iterator = Some (d :: its) ∧ it' = Some its))
  ∧ ∃ batch closure,
      get_batch data_iterator = (Ok batch, it')
      ∧ model (tokens batch) (position_ids batch) (attention_mask batch)
              (labels batch) = Ok out
      ∧ forward_step data_iterator model timers
        = (Ok (out, closure), it',
           timers ++ [TimerStart "batch-generator" (Some 2);
                      TimerStop "batch-generator"])
      ∧ ∀ output_tensor,
          closure output_tensor = loss_func (loss_mask batch) output_tensor.
Proof.
  intros Hf Hb Hk Hh Hm. split.
  { destruct (fetch_ok_inv _ _ _ Hf) as [(-> & _ & ->)|(d & its & -> & _ & ->)];
      [by left | right; by exists d, its]. }
  pose proof (get_batch_ok _ _ _ _ _ _ _ _ Hf Hb Hk Hh) as Hg.
  eexists _, _. split; [exact Hg|]. split; [exact Hm|]. split; [|done].
  unfold forward_step. rewrite Hg. simpl. rewrite Hm. simpl.
  by rewrite <- app_assoc.
Qed.

End ForwardStep.

(** ** The dataset provider *)

Section Provider.
Context {Dataset : Type} `{!Megatron Dataset}.

(** C6: the provider looks at the first entry of the data-path list only.
    If it is an existing regular file, the result is that of the
    original-format builder called with nothing but the dataset-type tag;
    otherwise it is that of the indexed-corpus builder called with the path
    prefixes, the maximal padded length, the dataset-type tag, the split
    string, the per-split sample counts, the seed, and the negation of the
    mmap-warmup flag.  The three datasets are those of that one call. *)
Theorem provider_selects_builder first others (num_samples : list Z) :
  train_data_path get_args = first :: others →
  train_valid_test_datasets_provider num_samples
  = if isfile first
    then build_pretrain_dataset_from_original (dataset get_args)
    else build_pretrain_dataset_from_idxmap
           (first :: others)
           (max_padding_length get_args)
           (dataset get_args)
           (split get_args)
           num_samples
           (seed get_args)
           (negb (mmap_warmup get_args)).
Proof.
  intros Hp. unfold train_valid_test_datasets_provider. by rewrite Hp.
Qed.

(** X14: without a first entry there is nothing to inspect: on an empty
    data-path list the provider raises [IndexError], whatever [isfile] and
    the builders would do. *)
Lemma provider_no_path (num_samples : list Z) :
  train_data_path get_args = [] →
  train_valid_test_datasets_provider num_samples = Raise IndexError.
Proof.
  intros Hp. unfold train_valid_test_datasets_provider. by rewrite Hp.
Qed.

End Provider.

(** ** The program on the reference runtime *)

Section OnReference.
Import Reference.

Lemma pack_keys_ok (d : raw_batch) t t' :
  d !! "input_ids" = Some t → d !! "labels" = Some t' →
  t_dtype t = torch_int64 → t_dtype t' = torch_int64 →
  pack keys d datatype = Ok (<["input_ids" := t]> (<["labels" := t']> ∅)).
Proof.
  intros Hi Hl Hti Htl. unfold keys, datatype. simpl. unfold getitem.
  rewrite Hi, Hl. simpl. by rewrite !decide_True.
Qed.

Lemma pack_keys_no_labels (d : raw_batch) t :
  d !! "input_ids" = Some t → d !! "labels" = None →
  t_dtype t = torch_int64 →
  pack keys d datatype = Raise (KeyError "labels").
Proof.
  intros Hi Hl Hti. unfold keys, datatype. simpl. unfold getitem.
  rewrite Hi, Hl. simpl. by rewrite decide_True.
Qed.

(** Every rank receives what rank 0 holds. *)
Lemma broadcast_data_at_receiver r (d : raw_batch) ks data dt :
  broadcast_data_at (S r) (Some d) ks data dt = pack ks d dt.
Proof. reflexivity. Qed.

Lemma broadcast_data_at_source src (d : raw_batch) ks dt :
  broadcast_data_at 0 src ks (Some d) dt = pack ks d dt.
Proof. reflexivity. Qed.

(** The reference helper keeps the contract [get_batch] relies on. *)
Lemma reference_masks_eod v : @masks_eod _ (runtime v).
Proof.
  intros data eod rp ra m lm pid b i [= _ <- _] Hd. simpl.
  unfold at2, ltor_loss_mask in *. rewrite list_lookup_fmap.
  destruct (data !! b) as [r|]; simpl in *; [|done].
  rewrite list_lookup_fmap, Hd. simpl. by rewrite Z.eqb_refl.
Qed.

(** With the reset-positions policy, the position after an
    end-of-document token is 0. *)
Lemma ltor_positions_restart eod pos row i :
  row !! i = Some eod → S i < length row →
  ltor_positions eod true pos row !! S i = Some 0%Z.
Proof.
  revert pos i. induction row as [|x row IH]; intros pos [|i] Hi Hlen;
    simpl in *; try done; try lia.
  - injection Hi as ->. rewrite Z.eqb_refl. simpl.
    destruct row; simpl in *; [lia | done].
  - apply IH; [done | lia].
Qed.

Lemma batch_of_on_reference v (d : raw_batch) data t t' :
  broadcast_data_at (v_tp_rank v) (v_tp_source v) keys data datatype
    = pack keys d datatype →
  d !! "input_ids" = Some t → d !! "labels" = Some t' →
  t_dtype t = torch_int64 → t_dtype t' = torch_int64 →
  @batch_of _ (runtime v) data =
    Ok {| tokens := cols_but_last (t_rows t);
          labels := cols_from 1 (t_rows t);
          loss_mask :=
            ltor_loss_mask (pad_token_id (v_tokenizer v)) true
                           (cols_but_last (t_rows t));
          attention_mask :=
            ne (cols_but_last (t_rows t)) (pad_token_id (v_tokenizer v));
          position_ids :=
            ltor_positions (pad_token_id (v_tokenizer v))
                           (reset_position_ids (v_args v)) 0
              <$> cols_but_last (t_rows t) |}.
Proof.
  intros Hb Hi Hl Hti Htl.
  eapply (@batch_of_ok _ (runtime v)); simpl.
  - rewrite Hb. by eapply pack_keys_ok.
  - by rewrite lookup_insert_eq.
  - reflexivity.
Qed.

(** C8, as the code has it: [get_batch] asks the broadcast for the keys
    [input_ids] and [labels], so on the rank that owns the data it succeeds
    and returns the five tensors for every record that holds both fields as
    64-bit integer tensors; the contents of [labels] are not used. *)
Theorem get_batch_succeeds_with_both_keys v (d : raw_batch) its t t' :
  v_tp_rank v = 0 →
  d !! "input_ids" = Some t → d !! "labels" = Some t' →
  t_dtype t = torch_int64 → t_dtype t' = torch_int64 →
  @get_batch _ (runtime v) (Some (d :: its)) =
    (Ok {| tokens := cols_but_last (t_rows t);
           labels := cols_from 1 (t_rows t);
           loss_mask :=
             ltor_loss_mask (pad_token_id (v_tokenizer v)) true
                            (cols_but_last (t_rows t));
           attention_mask :=
             ne (cols_but_last (t_rows t)) (pad_token_id (v_tokenizer v));
           position_ids :=
             ltor_positions (pad_token_id (v_tokenizer v))
                            (reset_position_ids (v_args v)) 0
               <$> cols_but_last (t_rows t) |},
     Some its).
Proof.
  intros Hr Hi Hl Hti Htl. unfold get_batch. simpl.
  rewrite (batch_of_on_reference v d (Some d) t t'); auto.
  by rewrite Hr.
Qed.

Lemma imap_replicate_const {A B} (f : nat → A → B) k x y :
  (∀ i, f i x = y) → imap f (replicate k x) = replicate k y.
Proof.
  revert f. induction k as [|k IH]; intros f Hf; simpl; [done|].
  rewrite Hf. f_equal. apply IH. intros i. apply Hf.
Qed.

(** C9: in a model-sharding group whose rank 0 owns the iterator and whose
    other ranks pass [None], the broadcast inside [get_batch] leaves every
    rank with the same tensors, those of the record rank 0 fetched, and
    every rank returns the same five tensors; only rank 0's iterator moves. *)
Theorem tp_group_same_batch v (d : raw_batch) its k :
  (∀ r, r ≤ k →
     @broadcast_data _ (runtime (at_tp_rank v r (Some d))) keys
       (if decide (r = 0) then Some d else None) datatype
     = pack keys d datatype)
  ∧ (∃ res,
       tp_group_get_batch v (Some (d :: its) :: replicate k None)
       = (res, Some its) :: replicate k (res, None)
       ∧ ∀ t t',
           d !! "input_ids" = Some t → d !! "labels" = Some t' →
           t_dtype t = torch_int64 → t_dtype t' = torch_int64 →
           ∃ batch, res = Ok batch
                    ∧ tokens batch = cols_but_last (t_rows t)
                    ∧ labels batch = cols_from 1 (t_rows t)).
Proof.
  split.
  { intros [|r] _; reflexivity. }
  exists (@batch_of _ (runtime (at_tp_rank v 0 (Some d))) (Some d)). split.
  - unfold tp_group_get_batch. rewrite imap_cons. f_equal.
    apply imap_replicate_const. intros i. reflexivity.
  - intros t t' Hi Hl Hti Htl.
    eexists. split; [by eapply batch_of_on_reference|done].
Qed.

Lemma all_reduce_sum_singletons l0 ls :
  all_reduce_sum ((λ l, [l]) <$> (l0 :: ls)) = [fold_left f32_add ls l0].
Proof.
  simpl. revert l0. induction ls as [|x ls IH]; intros l0; simpl; [done|].
  apply IH.
Qed.

Lemma contributions_of_locals (inputs : list (tensor2 f32 * tensor2 f32))
    (locals : list f32) :
  Forall2 (λ input l, local_loss input.1 input.2 = Ok l) inputs locals →
  contribution <$> inputs = (λ l, [l]) <$> locals.
Proof.
  induction 1 as [|input l inputs locals Hl _ IH]; simpl; [done|].
  unfold contribution at 1. rewrite Hl. by f_equal.
Qed.

(** C5: on every worker of a data-parallel group, [loss_func] returns the
    worker's own masked mean, as computed before the reduction, and a
    dictionary whose only key is "lm loss"; its value is the sum of the
    masked means of all workers, each counted once, divided by the number of
    workers. *)
Theorem dp_group_loss_func_mean v
    (inputs : list (tensor2 f32 * tensor2 f32)) (l0 : f32) (ls : list f32) :
  Forall2 (λ input l, local_loss input.1 input.2 = Ok l) inputs (l0 :: ls) →
  let mean :=
    f32_div (fold_left f32_add ls l0) (f32_of_Z (Z.of_nat (S (length ls)))) in
  dp_group_loss_func v inputs
  = (λ l, Ok (l, {["lm loss" := mean]})) <$> (l0 :: ls)
  ∧ dom ({["lm loss" := mean]} : gmap string f32) = {["lm loss"]}.
Proof.
  intros Hloc mean. split; [|apply dom_singleton_L].
  pose proof (contributions_of_locals _ _ Hloc) as Hc.
  unfold dp_group_loss_func. rewrite Hc.
  assert (all_reduce_sum ((λ l, [l]) <$> (l0 :: ls))
          = [fold_left f32_add ls l0]) as Hsum
    by apply all_reduce_sum_singletons.
  assert (length ((λ l : f32, [l]) <$> (l0 :: ls)) = S (length ls)) as Hlen
    by (by rewrite length_fmap).
  remember ((λ l : f32, [l]) <$> (l0 :: ls)) as cs eqn:Hcs.
  apply list_eq. intros r.
  rewrite list_lookup_imap, list_lookup_fmap.
  destruct (inputs !! r) as [input|] eqn:Hin; simpl.
  - destruct (Forall2_lookup_l _ _ _ _ _ Hloc Hin) as (l & Hl & Hll).
    assert (cs !! r = Some [l]) as Hcr
      by (by rewrite Hcs, list_lookup_fmap, Hl).
    rewrite Hl. cbn [fmap option_fmap option_map]. f_equal.
    apply (@loss_func_ok _ (runtime _) _ _ _ _ []); [done|].
    cbn [average_losses_across_data_parallel_group runtime at_dp_rank
         v_dp_rank v_dp_contribs].
    unfold average_losses_at.
    rewrite (list_insert_id _ _ _ Hcr).
    by rewrite Hsum, Hlen.
  - apply Forall2_length in Hloc.
    rewrite (lookup_ge_None_2 (l0 :: ls)); [done|].
    apply lookup_ge_None_1 in Hin. lia.
Qed.

End OnReference.

(** ** The theorems at concrete inputs *)

Section Worked.
Import Reference Sample.

Lemma get_batch_causal_shift_witness :
  ∃ batch,
    @get_batch _ (runtime alone) (Some [record]) = (Ok batch, Some [])
    ∧ tokens batch = [[5; 6; 0]; [1; 0; 0]]%Z
    ∧ labels batch = [[6; 0; 7]; [0; 0; 2]]%Z.
Proof.
  edestruct (@get_batch_causal_shift _ (runtime alone) record [] record ids)
    as (batch & Hg & Ht & Hl & _).
  - vm_compute. reflexivity.
  - instantiate (1 := 3). instantiate (1 := 2).
    split; [reflexivity | repeat constructor].
  - vm_compute. reflexivity.
  - vm_compute. reflexivity.
  - reflexivity.
  - exists batch. split; [exact Hg|]. rewrite Ht, Hl. split; reflexivity.
Defined.

(** C3 as stated fails: the mask 0, 0 sums to zero, and [loss_func] returns
    a pair, with NaN as the loss, instead of raising. *)
Lemma loss_func_zero_mask_returns :
  f32_is_zero (torch_sum (view_flat mask_00)) = true
  ∧ @loss_func _ (runtime alone) mask_00 losses_12
    = Ok (S754_nan, {["lm loss" := S754_nan]}).
Proof. split; vm_compute; reflexivity. Qed.

Lemma loss_func_zero_mask_witness :
  ∃ loss,
    @loss_func _ (runtime alone) mask_00 losses_12
    = Ok (loss, {["lm loss" := S754_nan]})
    ∧ f32_is_finite loss = false.
Proof.
  apply (@loss_func_zero_mask _ (runtime alone) mask_00 losses_12
           S754_nan []).
  - reflexivity.
  - vm_compute. reflexivity.
  - vm_compute. reflexivity.
Defined.

Lemma get_batch_attention_mask_witness :
  ∃ batch,
    @get_batch _ (runtime alone) (Some [record]) = (Ok batch, Some [])
    ∧ tokens batch = [[5; 6; 0]; [1; 0; 0]]%Z
    ∧ attention_mask batch = [[true; true; false]; [true; false; false]].
Proof.
  edestruct (@get_batch_attention_mask _ (runtime alone) (Some [record])
               (Some record) (Some []) record ids)
    with (model := unit_model) (timers := @nil timer_event)
    as (batch & Hg & _ & Hb & _).
  - reflexivity.
  - vm_compute. reflexivity.
  - vm_compute. reflexivity.
  - reflexivity.
  - exists batch. split; [exact Hg|]. rewrite Hb. split; reflexivity.
Defined.

(** Two workers with the masked means 2 and 4 both log 3. *)
Lemma dp_group_loss_func_mean_witness :
  dp_group_loss_func alone [(mask_1010, losses_1234); (mask_11, losses_44)]
  = [Ok (F 2, {["lm loss" := F 3]}); Ok (F 4, {["lm loss" := F 3]})].
Proof.
  refine (eq_trans
            (proj1 (dp_group_loss_func_mean alone
                      [(mask_1010, losses_1234); (mask_11, losses_44)]
                      (F 2) [F 4] _)) _).
  - repeat constructor; vm_compute; reflexivity.
  - vm_compute. reflexivity.
Defined.

(** With a file at the first path the original-format builder is called;
    without one, the indexed-corpus builder. *)
Lemma provider_selects_builder_witness :
  @train_valid_test_datasets_provider _ (runtime alone) [100; 10; 1]%Z
  = built (FromOriginal "LLama-Pretrain-Raw")
  ∧ @train_valid_test_datasets_provider _ (runtime no_file) [100; 10; 1]%Z
    = built (FromIdxmap ["corpus.json"; "shard_b"] 8 "LLama-Pretrain-Raw"
               "949,50,1" [100; 10; 1]%Z 1234 true).
Proof.
  split.
  - refine (eq_trans
              (@provider_selects_builder _ (runtime alone)
                 "corpus.json" ["shard_b"] _ _) _); reflexivity.
  - refine (eq_trans
              (@provider_selects_builder _ (runtime no_file)
                 "corpus.json" ["shard_b"] _ _) _); reflexivity.
Defined.

(** C7 as stated fails: a call leaves two events on the timers. *)
Lemma forward_step_moves_timers :
  (@forward_step _ (runtime alone) (Some [record]) unit_model []).2
  = [TimerStart "batch-generator" (Some 2); TimerStop "batch-generator"]
  ∧ (@forward_step _ (runtime alone) (Some [record]) unit_model []).2 ≠ [].
Proof. split; [vm_compute; reflexivity | vm_compute; discriminate]. Qed.

Lemma forward_step_once_witness :
  ∃ batch closure,
    @get_batch _ (runtime alone) (Some [record]) = (Ok batch, Some [])
    ∧ unit_model (tokens batch) (position_ids batch) (attention_mask batch)
                 (labels batch)
      = Ok [[F 1; F 1; F 1]; [F 1; F 1; F 1]]
    ∧ @forward_step _ (runtime alone) (Some [record]) unit_model []
      = (Ok ([[F 1; F 1; F 1]; [F 1; F 1; F 1]], closure), Some [],
         [] ++ [TimerStart "batch-generator" (Some 2);
                TimerStop "batch-generator"])
    ∧ ∀ output_tensor,
        closure output_tensor
        = @loss_func _ (runtime alone) (loss_mask batch) output_tensor.
Proof.
  refine (proj2 (@forward_step_once _ (runtime alone) (Some [record])
                   (Some record) (Some []) record ids _ _ _ unit_model
                   _ [] _ _ _ _ _)).
  - reflexivity.
  - vm_compute. reflexivity.
  - vm_compute. reflexivity.
  - reflexivity.
  - vm_compute. reflexivity.
Defined.

(** C8 as stated fails: a record with [input_ids] alone is refused. *)
Lemma get_batch_ids_only_refused :
  record_ids_only !! "input_ids" = Some ids
  ∧ @get_batch _ (runtime alone) (Some [record_ids_only])
    = (Raise (KeyError "labels"), Some []).
Proof. split; vm_compute; reflexivity. Qed.

Lemma get_batch_succeeds_with_both_keys_witness :
  @get_batch _ (runtime alone) (Some [record])
  = (Ok {| tokens := [[5; 6; 0]; [1; 0; 0]]%Z;
           labels := [[6; 0; 7]; [0; 0; 2]]%Z;
           loss_mask := [[F 1; F 1; F 0]; [F 1; F 0; F 0]];
           attention_mask := [[true; true; false]; [true; false; false]];
           position_ids := [[0; 1; 2]; [0; 1; 0]]%Z |},
     Some []).
Proof.
  refine (eq_trans
            (get_batch_succeeds_with_both_keys alone record [] ids ids
               _ _ _ _ _) _).
  - reflexivity.
  - vm_compute. reflexivity.
  - vm_compute. reflexivity.
  - reflexivity.
  - reflexivity.
  - vm_compute. reflexivity.
Defined.

(** Three ranks, the first owning the data: the same batch on each. *)
Lemma tp_group_same_batch_witness :
  ∃ batch,
    tp_group_get_batch alone [Some [record]; None; None]
    = [(Ok batch, Some []); (Ok batch, None); (Ok batch, None)]
    ∧ tokens batch = [[5; 6; 0]; [1; 0; 0]]%Z
    ∧ labels batch = [[6; 0; 7]; [0; 0; 2]]%Z.
Proof.
  destruct (tp_group_same_batch alone record [] 2) as [_ (res & Hg & Hres)].
  destruct (Hres ids ids) as (batch & -> & Ht & Hl);
    [vm_compute; reflexivity | vm_compute; reflexivity
    | reflexivity | reflexivity |].
  exists batch. split; [exact Hg|]. rewrite Ht, Hl. split; reflexivity.
Defined.

(** The pad token at row 0, column 2 is outside the loss. *)
Lemma get_batch_masks_pad_witness :
  ∃ batch,
    @get_batch _ (runtime alone) (Some [record]) = (Ok batch, Some [])
    ∧ (∃ m,
         get_ltor_masks_and_position_ids_model (tokens batch) 0 true true true
         = Ok (m, loss_mask batch, position_ids batch))
    ∧ ∀ b i, at2 (tokens batch) b i = Some 0%Z →
             at2 (loss_mask batch) b i = Some f32_zero.
Proof.
  apply (@get_batch_masks_pad _ (runtime alone) (Some [record])
           (Some record) (Some []) record ids).
  - apply reference_masks_eod.
  - reflexivity.
  - vm_compute. reflexivity.
  - vm_compute. reflexivity.
  - reflexivity.
Defined.

End Worked.

(** * Further properties of the program *)

(** ** The batch constructor, whatever the outcome *)

Section GetBatchMore.
Context {Dataset : Type} `{!Megatron Dataset}.

(** A batch that was returned was built the way lines 72-86 build it. *)
Lemma get_batch_ok_inv data_iterator batch :
  (get_batch data_iterator).1 = Ok batch →
  ∃ data data_b t m,
    (fetch data_iterator).1 = Ok data
    ∧ broadcast_data keys data datatype = Ok data_b
    ∧ data_b !! "input_ids" = Some t
    ∧ get_ltor_masks_and_position_ids
        (cols_but_last (t_rows t)) (pad_token_id get_tokenizer)
        (reset_position_ids get_args) (reset_attention_mask get_args) true
      = Ok (m, loss_mask batch, position_ids batch)
    ∧ tokens batch = cols_but_last (t_rows t)
    ∧ labels batch = cols_from 1 (t_rows t)
    ∧ attention_mask batch = ne (tokens batch) (pad_token_id get_tokenizer).
Proof.
  unfold get_batch. destruct (fetch data_iterator) as [[data|e] it']; simpl;
    [|done].
  unfold batch_of. destruct (broadcast_data _ _ _) as [data_b|e] eqn:Hb;
    simpl; [|done].
  unfold getitem. destruct (data_b !! "input_ids") as [t|] eqn:Hk; simpl;
    [|done].
  unfold long.
  destruct (get_ltor_masks_and_position_ids _ _ _ _ _)
    as [[[m lm] pid]|e] eqn:Hh; simpl; [|done].
  intros [= <-]. simpl. by exists data, data_b, t, m.
Qed.

(** X2: an exception of the broadcast, or of the mask helper, reaches the
    caller of [get_batch] unchanged, and the record fetched is consumed. *)
Theorem get_batch_propagates data_iterator data it' e :
  fetch data_iterator = (Ok data, it') →
  broadcast_data keys data datatype = Raise e
  ∨ (∃ data_b t,
       broadcast_data keys data datatype = Ok data_b
       ∧ data_b !! "input_ids" = Some t
       ∧ get_ltor_masks_and_position_ids
           (cols_but_last (t_rows t)) (pad_token_id get_tokenizer)
           (reset_position_ids get_args) (reset_attention_mask get_args) true
         = Raise e) →
  get_batch data_iterator = (Raise e, it').
Proof.
  intros Hf H. unfold get_batch. rewrite Hf. simpl. unfold batch_of.
  destruct H as [Hb|(data_b & t & Hb & Hk & Hh)]; rewrite Hb; simpl; [done|].
  unfold getitem. rewrite Hk. simpl. unfold long. by rewrite Hh.
Qed.

(** X3: of what the broadcast returns, [get_batch] reads [input_ids] and
    nothing else: two broadcasts that agree on that entry give the same
    batch, or the same exception, whatever they hold under [labels] or any
    other key. *)
Theorem batch_of_reads_input_ids_only data data' data_b data_b' :
  broadcast_data keys data datatype = Ok data_b →
  broadcast_data keys data' datatype = Ok data_b' →
  data_b !! "input_ids" = data_b' !! "input_ids" →
  batch_of data = batch_of data'.
Proof.
  intros Hb Hb' Hk. unfold batch_of. rewrite Hb, Hb'. simpl.
  unfold getitem. by rewrite Hk.
Qed.

(** X4: the last column of [input_ids] reaches the labels only: two
    tensors that agree on all but the last column give the same tokens,
    loss mask, attention mask and position ids, or the same exception. *)
Theorem last_column_only_in_labels data data' data_b data_b' t t' :
  broadcast_data keys data datatype = Ok data_b →
  broadcast_data keys data' datatype = Ok data_b' →
  data_b !! "input_ids" = Some t →
  data_b' !! "input_ids" = Some t' →
  cols_but_last (t_rows t) = cols_but_last (t_rows t') →
  (λ b, (tokens b, loss_mask b, attention_mask b, position_ids b))
    <$> batch_of data
  = (λ b, (tokens b, loss_mask b, attention_mask b, position_ids b))
    <$> batch_of data'.
Proof.
  intros Hb Hb' Hk Hk' Heq. unfold batch_of. rewrite Hb, Hb'. simpl.
  unfold getitem. rewrite Hk, Hk'. simpl. unfold long. rewrite Heq.
  by destruct (get_ltor_masks_and_position_ids _ _ _ _ _) as [[[m lm] pid]|e].
Qed.

End GetBatchMore.

(** ** Shapes of the batch *)

Section Shapes.
Context {A : Type}.
Implicit Types (t : tensor2 A).

Lemma cols_row_lengths t :
  length <$> cols_but_last t = length <$> cols_from 1 t.
Proof.
  unfold cols_but_last, cols_from. rewrite <- !list_fmap_compose.
  apply list_fmap_ext. intros _ r _. simpl.
  rewrite length_take, length_drop. lia.
Qed.

Lemma cols_overlap t :
  cols_from 1 (cols_but_last t) = cols_but_last (cols_from 1 t).
Proof.
  unfold cols_but_last, cols_from. rewrite <- !list_fmap_compose.
  apply list_fmap_ext. intros _ r _. simpl.
  destruct r as [|x [|y r]]; simpl; [done..|].
  by rewrite !Nat.sub_0_r.
Qed.

End Shapes.

Lemma ne_row_lengths (t : tensor2 Z) v : length <$> ne t v = length <$> t.
Proof.
  unfold ne. rewrite <- list_fmap_compose.
  apply list_fmap_ext. intros _ r _. simpl. apply length_fmap.
Qed.

Section BatchShape.
Context {Dataset : Type} `{!Megatron Dataset}.

(** X5: in every batch [get_batch] returns, [tokens] without its first
    column is [labels] without its last column: the two are the same
    sequence, one step apart. *)
Theorem get_batch_tokens_labels_overlap data_iterator batch :
  (get_batch data_iterator).1 = Ok batch →
  cols_from 1 (tokens batch) = cols_but_last (labels batch).
Proof.
  intros Hg.
  destruct (get_batch_ok_inv _ _ Hg) as (_ & _ & t & _ & _ & _ & _ & _ & -> & -> & _).
  apply cols_overlap.
Qed.

(** X6: in every batch [get_batch] returns, [tokens], [labels] and
    [attention_mask] have as many rows as [input_ids], and row by row the
    same length, one less than the row of [input_ids] (and 0 for an empty
    row), whether or not the rows of [input_ids] are equally long. *)
Theorem get_batch_row_lengths data_iterator batch :
  (get_batch data_iterator).1 = Ok batch →
  ∃ data data_b t,
    (fetch data_iterator).1 = Ok data
    ∧ broadcast_data keys data datatype = Ok data_b
    ∧ data_b !! "input_ids" = Some t
    ∧ length <$> tokens batch = (λ r, length r - 1) <$> t_rows t
    ∧ length <$> labels batch = length <$> tokens batch
    ∧ length <$> attention_mask batch = length <$> tokens batch.
Proof.
  intros Hg.
  destruct (get_batch_ok_inv _ _ Hg)
    as (data & data_b & t & m & Hf & Hb & Hk & _ & Ht & Hl & Ha).
  exists data, data_b, t. split; [done|]. split; [done|]. split; [done|].
  rewrite Ha, Ht, Hl. split; [|split].
  - unfold cols_but_last. rewrite <- list_fmap_compose.
    apply list_fmap_ext. intros _ r _. simpl. rewrite length_take. lia.
  - symmetry. apply cols_row_lengths.
  - apply ne_row_lengths.
Qed.

End BatchShape.

(** ** The training step, whatever the outcome *)

Section ForwardStepMore.
Context {Dataset : Type} `{!Megatron Dataset}.

(** X7: when [get_batch] raises, [forward_step] raises the same exception
    without calling the model, and leaves the "batch-generator" timer
    started and not stopped. *)
Theorem forward_step_batch_failure data_iterator (model : Model) timers e :
  (get_batch data_iterator).1 = Raise e →
  forward_step data_iterator model timers
  = (Raise e, (get_batch data_iterator).2,
     timers ++ [TimerStart "batch-generator" (Some 2)]).
Proof.
  unfold forward_step.
  destruct (get_batch data_iterator) as [[b|e'] it']; simpl; [done|].
  by intros [= ->].
Qed.

(** X8: when the model raises, [forward_step] raises the same exception;
    by then the record is consumed and the "batch-generator" timer has been
    started and stopped. *)
Theorem forward_step_model_failure data_iterator (model : Model) timers
    batch e :
  (get_batch data_iterator).1 = Ok batch →
  model (tokens batch) (position_ids batch) (attention_mask batch)
        (labels batch) = Raise e →
  forward_step data_iterator model timers
  = (Raise e, (get_batch data_iterator).2,
     timers ++ [TimerStart "batch-generator" (Some 2);
                TimerStop "batch-generator"]).
Proof.
  unfold forward_step.
  destruct (get_batch data_iterator) as [[b|e'] it']; simpl; [|done].
  intros [= ->] Hm. rewrite Hm. simpl. by rewrite <- app_assoc.
Qed.

(** X9: whether the step succeeds or raises, [forward_step] takes exactly
    one record off an iterator that has one, leaves an exhausted or absent
    iterator as it is, and only appends to the timers: the start of
    "batch-generator", followed by its stop or by nothing. *)
Theorem forward_step_effects data_iterator (model : Model) timers :
  (forward_step data_iterator model timers).1.2
  = match data_iterator with
    | Some (_ :: its) => Some its
    | Some [] => Some []
    | None => None
    end
  ∧ ∃ tail,
      (forward_step data_iterator model timers).2
      = timers ++ TimerStart "batch-generator" (Some 2) :: tail
      ∧ (tail = [] ∨ tail = [TimerStop "batch-generator"]).
Proof.
  unfold forward_step, get_batch.
  destruct data_iterator as [[|d its]|]; simpl.
  - split; [done|]. exists []. by split; [|left].
  - destruct (batch_of (Some d)) as [b|e]; simpl.
    + split; [done|]. exists [TimerStop "batch-generator"].
      split; [by rewrite <- app_assoc | by right].
    + split; [done|]. exists []. by split; [|left].
  - destruct (batch_of None) as [b|e]; simpl.
    + split; [done|]. exists [TimerStop "batch-generator"].
      split; [by rewrite <- app_assoc | by right].
    + split; [done|]. exists []. by split; [|left].
Qed.

End ForwardStepMore.

(** ** The loss reducer at the edges *)

Lemma f32_add_nan_l x : f32_add S754_nan x = S754_nan.
Proof. by destruct x. Qed.

Lemma f32_add_nan_r x : f32_add x S754_nan = S754_nan.
Proof. by destruct x. Qed.

(** A NaN among the summands, or as the start, makes the sum a NaN. *)
Lemma fold_f32_add_nan l acc :
  acc = S754_nan ∨ S754_nan ∈ l → fold_left f32_add l acc = S754_nan.
Proof.
  revert acc. induction l as [|x l IH]; intros acc H; simpl.
  - destruct H as [->|H]; [done|]. by apply elem_of_nil in H.
  - apply IH. destruct H as [->|H]; [left; apply f32_add_nan_l|].
    apply elem_of_cons in H as [<-|H]; [left; apply f32_add_nan_r | by right].
Qed.

Lemma f32_mul_not_finite_zero x s :
  f32_is_finite x = false → f32_mul x (S754_zero s) = S754_nan.
Proof. by destruct x. Qed.

Lemma f32_add_zeros x y :
  f32_is_zero x = true → f32_is_zero y = true →
  f32_is_zero (f32_add x y) = true.
Proof.
  destruct x as [sx| | |]; [|done..]. destruct y as [sy| | |]; [|done..].
  intros _ _. by destruct sx, sy.
Qed.

(** A sum of zeros, also the empty sum, is a zero. *)
Lemma torch_sum_zeros l :
  Forall (λ m, f32_is_zero m = true) l → f32_is_zero (torch_sum l) = true.
Proof.
  unfold torch_sum. generalize f32_zero (eq_refl : f32_is_zero f32_zero = true).
  induction l as [|x l IH]; intros acc Hacc Hl; simpl; [done|].
  inversion Hl; subst. apply IH; [by apply f32_add_zeros | done].
Qed.

Lemma torch_mul_mismatch a b :
  length a ≠ length b → length a ≠ 1 → length b ≠ 1 →
  torch_mul a b = Raise RuntimeError.
Proof.
  intros Hab Ha Hb. unfold torch_mul. rewrite decide_False by done.
  destruct a as [|x [|x' a]]; destruct b as [|y [|y' b]]; simpl in *; done.
Qed.

Lemma torch_mul_one_element_mask a m :
  length a ≠ 1 → torch_mul a [m] = Ok ((λ x, f32_mul x m) <$> a).
Proof.
  intros Ha. unfold torch_mul. rewrite decide_False by done.
  by destruct a as [|x [|x' a]].
Qed.

Section LossFuncMore.
Context {Dataset : Type} `{!Megatron Dataset}.

(** X10: a per-token loss that is not finite poisons the batch even at a
    position the mask excludes: the product with the mask's 0 is a NaN, and
    so is the local loss [loss_func] returns. *)
Theorem loss_func_poisoned_at_masked_position (mask out : tensor2 f32)
    k x s a avg :
  length (view_flat out) = length (view_flat mask) →
  view_flat out !! k = Some x →
  f32_is_finite x = false →
  view_flat mask !! k = Some (S754_zero s) →
  average_losses_across_data_parallel_group [S754_nan] = Ok (a :: avg) →
  loss_func mask out = Ok (S754_nan, {["lm loss" := a]}).
Proof.
  intros Hl Hx Hnf Hm Ha. eapply loss_func_ok; [|exact Ha].
  unfold local_loss. rewrite (torch_mul_same_length _ _ Hl). simpl.
  unfold torch_sum at 1. rewrite fold_f32_add_nan; [done|]. right.
  apply list_elem_of_lookup. exists k.
  rewrite lookup_zip_with, Hx. simpl.
  transitivity (Some (S754_zero s) ≫= (λ y : f32, Some (f32_mul x y)));
    [by f_equal|].
  simpl. by rewrite f32_mul_not_finite_zero.
Qed.

(** X11: when every entry of the loss mask is a zero, and also when mask
    and losses are empty, [loss_func] returns a loss that is not finite
    instead of raising. *)
Theorem loss_func_all_zero_mask (mask out : tensor2 f32) a avg :
  length (view_flat out) = length (view_flat mask) →
  Forall (λ m, f32_is_zero m = true) (view_flat mask) →
  average_losses_across_data_parallel_group
    [masked_mean (view_flat out) (view_flat mask)] = Ok (a :: avg) →
  ∃ loss,
    loss_func mask out = Ok (loss, {["lm loss" := a]})
    ∧ f32_is_finite loss = false.
Proof.
  intros Hl Hz Ha. eexists.
  split; [by eapply loss_func_ok; [apply local_loss_masked_mean|]|].
  unfold masked_mean. apply f32_div_by_zero.
  rewrite <- torch_sum_sum_upto. by apply torch_sum_zeros.
Qed.

(** X12: when mask and losses differ in their number of elements and
    neither has exactly one, [loss_func] raises at the product, before any
    averaging across workers. *)
Theorem loss_func_shape_mismatch (mask out : tensor2 f32) :
  length (view_flat out) ≠ length (view_flat mask) →
  length (view_flat out) ≠ 1 →
  length (view_flat mask) ≠ 1 →
  loss_func mask out = Raise RuntimeError.
Proof.
  intros Hl Ho Hm. unfold loss_func, local_loss.
  by rewrite torch_mul_mismatch.
Qed.

(** X13: a loss mask of a single element is accepted for any number of
    losses: it multiplies every loss, and the sum of the products is
    divided by that one element, not by the number of losses. *)
Theorem loss_func_one_element_mask (mask out : tensor2 f32) m a avg :
  view_flat mask = [m] →
  length (view_flat out) ≠ 1 →
  average_losses_across_data_parallel_group
    [f32_div (torch_sum ((λ x, f32_mul x m) <$> view_flat out))
             (torch_sum [m])]
    = Ok (a :: avg) →
  loss_func mask out
  = Ok (f32_div (torch_sum ((λ x, f32_mul x m) <$> view_flat out))
                (torch_sum [m]),
        {["lm loss" := a]}).
Proof.
  intros Hm Ho Ha. eapply loss_func_ok; [|exact Ha].
  unfold local_loss. rewrite Hm, torch_mul_one_element_mask by done.
  reflexivity.
Qed.

End LossFuncMore.

(** ** The further properties at concrete inputs *)

Section WorkedMore.
Import Reference Sample Edge.

Lemma get_batch_propagates_witness :
  @get_batch _ (runtime alone) (Some [record_ids_only])
  = (Raise (KeyError "labels"), Some []).
Proof.
  apply (@get_batch_propagates _ (runtime alone) (Some [record_ids_only])
           (Some record_ids_only) (Some [])).
  - reflexivity.
  - left. vm_compute. reflexivity.
Defined.

Lemma batch_of_reads_input_ids_only_witness :
  @batch_of _ (runtime alone) (Some record)
  = @batch_of _ (runtime alone) (Some record_other_labels).
Proof.
  apply (@batch_of_reads_input_ids_only _ (runtime alone) (Some record)
           (Some record_other_labels) record record_other_labels);
    vm_compute; reflexivity.
Defined.

Lemma last_column_only_in_labels_witness :
  (λ b, (tokens b, loss_mask b, attention_mask b, position_ids b))
    <$> @batch_of _ (runtime alone) (Some record)
  = (λ b, (tokens b, loss_mask b, attention_mask b, position_ids b))
    <$> @batch_of _ (runtime alone) (Some record_other_last).
Proof.
  apply (@last_column_only_in_labels _ (runtime alone) (Some record)
           (Some record_other_last) record record_other_last
           ids ids_other_last);
    vm_compute; reflexivity.
Defined.

Lemma get_batch_tokens_labels_overlap_witness :
  ∃ batch,
    (@get_batch _ (runtime alone) (Some [record])).1 = Ok batch
    ∧ cols_from 1 (tokens batch) = cols_but_last (labels batch).
Proof.
  eexists. split; [vm_compute; reflexivity|].
  apply (@get_batch_tokens_labels_overlap _ (runtime alone) (Some [record])).
  vm_compute. reflexivity.
Defined.

Lemma get_batch_row_lengths_witness :
  ∃ batch data data_b t,
    (@get_batch _ (runtime alone) (Some [record])).1 = Ok batch
    ∧ (@fetch (Some [record])).1 = Ok data
    ∧ @broadcast_data _ (runtime alone) keys data datatype = Ok data_b
    ∧ data_b !! "input_ids" = Some t
    ∧ length <$> tokens batch = (λ r, length r - 1) <$> t_rows t
    ∧ length <$> labels batch = length <$> tokens batch
    ∧ length <$> attention_mask batch = length <$> tokens batch.
Proof.
  eexists.
  edestruct (@get_batch_row_lengths _ (runtime alone) (Some [record]))
    as (data & data_b & t & H); [vm_compute; reflexivity|].
  exists data, data_b, t. split; [vm_compute; reflexivity | exact H].
Defined.

(** At the end of the data the step raises [StopIteration] and the timer
    stays started. *)
Lemma forward_step_batch_failure_witness :
  @forward_step _ (runtime alone) (Some []) unit_model []
  = (Raise StopIteration, Some [],
     [TimerStart "batch-generator" (Some 2)]).
Proof.
  apply (@forward_step_batch_failure _ (runtime alone) (Some []) unit_model
           [] StopIteration).
  reflexivity.
Defined.

Lemma forward_step_model_failure_witness :
  ∃ batch,
    (@get_batch _ (runtime alone) (Some [record])).1 = Ok batch
    ∧ @forward_step _ (runtime alone) (Some [record]) broken_model []
      = (Raise RuntimeError,
         (@get_batch _ (runtime alone) (Some [record])).2,
         [] ++ [TimerStart "batch-generator" (Some 2);
                TimerStop "batch-generator"]).
Proof.
  eexists. split; [vm_compute; reflexivity|].
  eapply (@forward_step_model_failure _ (runtime alone) (Some [record])
            broken_model []).
  - vm_compute. reflexivity.
  - reflexivity.
Defined.

(** An infinite loss under the mask 1, 0 at the masked position. *)
Lemma loss_func_poisoned_at_masked_position_witness :
  @loss_func _ (runtime alone) mask_10 losses_1_inf
  = Ok (S754_nan, {["lm loss" := S754_nan]}).
Proof.
  apply (@loss_func_poisoned_at_masked_position _ (runtime alone)
           mask_10 losses_1_inf 1 (S754_infinity false) false S754_nan []);
    vm_compute; reflexivity.
Defined.

Lemma loss_func_all_zero_mask_witness :
  ∃ loss,
    @loss_func _ (runtime alone) mask_00 losses_12
    = Ok (loss, {["lm loss" := S754_nan]})
    ∧ f32_is_finite loss = false.
Proof.
  apply (@loss_func_all_zero_mask _ (runtime alone) mask_00 losses_12
           S754_nan []).
  - reflexivity.
  - repeat constructor.
  - vm_compute. reflexivity.
Defined.

Lemma loss_func_shape_mismatch_witness :
  @loss_func _ (runtime alone) mask_111 losses_12 = Raise RuntimeError.
Proof.
  apply (@loss_func_shape_mismatch _ (runtime alone) mask_111 losses_12);
    vm_compute; discriminate.
Defined.

(** Losses 1, 2, 3 under the one-element mask 1: the loss is 6, their sum. *)
Lemma loss_func_one_element_mask_witness :
  @loss_func _ (runtime alone) mask_1 losses_123
  = Ok (F 6, {["lm loss" := F 6]}).
Proof.
  refine (eq_trans
            (@loss_func_one_element_mask _ (runtime alone) mask_1 losses_123
               (F 1) (F 6) [] _ _ _) _).
  - reflexivity.
  - vm_compute. discriminate.
  - vm_compute. reflexivity.
  - vm_compute. reflexivity.
Defined.

Lemma provider_no_path_witness :
  @train_valid_test_datasets_provider _ (runtime no_paths) [100; 10; 1]%Z
  = Raise IndexError.
Proof.
  apply (@provider_no_path _ (runtime no_paths)). reflexivity.
Defined.

End WorkedMore.

(** ** The loss reducer, in whatever order the sums are taken *)

(** Adding from the left is one of the orders. *)
Lemma torch_sum_summation : summation torch_sum.
Proof.
  intros l. induction l as [|x l IH] using rev_ind; [apply sums_nil|].
  rewrite torch_sum_snoc. apply sums_app; [exact IH | apply sums_one].
Qed.

Lemma loss_func_by_torch_sum {Dataset} `{!Megatron Dataset}
    (mask out : tensor2 f32) :
  loss_func_by torch_sum mask out = loss_func mask out.
Proof. reflexivity. Qed.

Section Flattening.
Implicit Types (t : tensor2 f32).

Lemma length_view_flat t n m :
  has_shape t n m → length (view_flat t) = n * m.
Proof.
  revert n. induction t as [|r t IH]; intros n [Hn Hm]; simpl in *.
  - by subst.
  - apply Forall_cons in Hm as [Hr Ht]. subst n.
    rewrite length_app, Hr, (IH (length t)); [lia | done].
Qed.

(** [view(-1)] lays the rows end to end: position [k] of the flattened
    tensor is row [k / m], column [k mod m]. *)
Lemma view_flat_lookup t n m k :
  has_shape t n m → k < n * m →
  view_flat t !! k = at2 t (k / m) (k mod m).
Proof.
  revert n k. induction t as [|r t IH]; intros n k [Hn Hm] Hk; simpl in *.
  - subst. lia.
  - apply Forall_cons in Hm as [Hr Ht]. subst n.
    assert (m ≠ 0) as Hm0 by (intros ->; lia).
    destruct (decide (k < m)) as [Hlt|Hge].
    + rewrite lookup_app_l by lia.
      by rewrite Nat.div_small, Nat.mod_small.
    + rewrite lookup_app_r by lia. rewrite Hr.
      rewrite (IH (length t) (k - m)); [|done|lia].
      replace (k / m) with (S ((k - m) / m)).
      * replace (k mod m) with ((k - m) mod m); [done|].
        replace k with ((k - m) + 1 * m) at 2 by lia.
        by rewrite Nat.Div0.mod_add.
      * replace k with (1 * m + (k - m)) at 2 by lia.
        by rewrite Nat.div_add_l.
Qed.

Lemma view_flat_entry t n m k :
  has_shape t n m → k < n * m →
  view_flat t !! k = Some (flat_entry t m k).
Proof.
  intros Hs Hk. rewrite (view_flat_lookup _ _ _ _ Hs Hk). unfold flat_entry.
  destruct (has_shape_at2 t n m (k / m) (k mod m) Hs) as [x ->]; [| |done].
  - apply Nat.Div0.div_lt_upper_bound. lia.
  - apply Nat.mod_upper_bound. intros ->. lia.
Qed.

Lemma view_flat_mask_terms t n m :
  has_shape t n m → view_flat t = mask_terms t m (n * m).
Proof.
  intros Hs. apply list_eq. intros k. unfold mask_terms.
  rewrite list_lookup_fmap.
  destruct (decide (k < n * m)) as [Hk|Hk].
  - by rewrite (view_flat_entry _ _ _ _ Hs Hk), lookup_seq_lt.
  - rewrite lookup_seq_ge by lia. simpl. apply lookup_ge_None_2.
    rewrite (length_view_flat _ _ _ Hs). lia.
Qed.

Lemma view_flat_weighted_terms (mask out : tensor2 f32) n m n' m' :
  has_shape mask n m → has_shape out n' m' → n' * m' = n * m →
  zip_with f32_mul (view_flat out) (view_flat mask)
  = weighted_terms mask m out m' (n * m).
Proof.
  intros Hs Hs' Hc. apply list_eq. intros k. unfold weighted_terms.
  rewrite lookup_zip_with, list_lookup_fmap.
  destruct (decide (k < n * m)) as [Hk|Hk].
  - rewrite (view_flat_entry out n' m' k Hs') by lia. simpl.
    rewrite (view_flat_entry mask n m k Hs) by lia. simpl.
    by rewrite lookup_seq_lt.
  - rewrite lookup_seq_ge by lia. simpl.
    rewrite (lookup_ge_None_2 (view_flat out)); [done|].
    rewrite (length_view_flat _ _ _ Hs'). lia.
Qed.

End Flattening.

(** *** Small whole numbers add exactly, in any order *)

Lemma whole_of_nat n : n ≤ 4 → count_of (f32_of_Z (Z.of_nat n)) = n.
Proof.
  intros Hn. do 5 (destruct n as [|n]; [vm_compute; reflexivity|]). lia.
Qed.

Lemma whole_add x y :
  whole x → whole y → count_of x + count_of y ≤ 4 →
  f32_add x y = f32_of_Z (Z.of_nat (count_of x + count_of y)).
Proof.
  unfold whole. generalize (count_of x), (count_of y).
  intros a b -> -> Hab.
  do 5 (destruct a as [|a];
        [do 5 (destruct b as [|b]; [vm_compute; reflexivity|]); lia|]).
  lia.
Qed.

Lemma sums_to_whole l v :
  sums_to l v →
  Forall whole l → sum_list_with count_of l ≤ 4 →
  v = f32_of_Z (Z.of_nat (sum_list_with count_of l)).
Proof.
  induction 1 as [|x|l1 l2 v1 v2 _ IH1 _ IH2|l l' v Hp _ IH];
    intros Hw Hs.
  - reflexivity.
  - simpl. rewrite Nat.add_0_r. rewrite Forall_singleton in Hw. exact Hw.
  - apply Forall_app in Hw as [Hw1 Hw2].
    rewrite sum_list_with_app in Hs |- *.
    specialize (IH1 Hw1 ltac:(lia)). specialize (IH2 Hw2 ltac:(lia)).
    assert (count_of v1 = sum_list_with count_of l1) as Hc1
      by (rewrite IH1; apply whole_of_nat; lia).
    assert (count_of v2 = sum_list_with count_of l2) as Hc2
      by (rewrite IH2; apply whole_of_nat; lia).
    rewrite <- Hc1, <- Hc2. apply whole_add; unfold whole.
    + by rewrite Hc1.
    + by rewrite Hc2.
    + lia.
  - rewrite <- Hp in Hw, Hs |- *. by apply IH.
Qed.

Section LossFuncBy.
Context {Dataset : Type} `{!Megatron Dataset}.

Lemma local_loss_by_shapes sum (mask out : tensor2 f32) n m n' m' :
  has_shape mask n m → has_shape out n' m' → n' * m' = n * m →
  local_loss_by sum mask out
  = Ok (f32_div (sum (weighted_terms mask m out m' (n * m)))
                (sum (mask_terms mask m (n * m)))).
Proof.
  intros Hs Hs' Hc. unfold local_loss_by.
  rewrite torch_mul_same_length
    by (rewrite (length_view_flat _ _ _ Hs), (length_view_flat _ _ _ Hs');
        done).
  simpl.
  rewrite (view_flat_weighted_terms _ _ _ _ _ _ Hs Hs' Hc).
  by rewrite <- (view_flat_mask_terms _ _ _ Hs).
Qed.

(** C2: for a loss mask of shape (n, m) and a per-token loss tensor of
    shape (n', m') with the same number of elements, the local loss
    [loss_func] returns is a sum of loss times mask over all the n * m
    flattened positions, divided by a sum of the mask over all of them,
    whatever the order in which the two sums are accumulated.  For the
    losses 1, 2, 3, 4 under the mask 1, 0, 1, 0 it is 2.0 in every order. *)
Theorem loss_func_masked_mean_any_order sum (mask out : tensor2 f32)
    n m n' m' :
  summation sum →
  has_shape mask n m → has_shape out n' m' → n' * m' = n * m →
  (∀ l, ∃ a avg,
     average_losses_across_data_parallel_group [l] = Ok (a :: avg)) →
  (∃ loss a,
     loss_func_by sum mask out = Ok (loss, {["lm loss" := a]})
     ∧ is_masked_mean mask m out m' (n * m) loss)
  ∧ local_loss_by sum Sample.mask_1010 Sample.losses_1234
    = Ok (f32_of_Z 2).
Proof.
  intros Hsum Hs Hs' Hc Havg. split.
  - destruct (Havg (f32_div (sum (weighted_terms mask m out m' (n * m)))
                            (sum (mask_terms mask m (n * m)))))
      as (a & avg & Ha).
    eexists _, a. split.
    + unfold loss_func_by.
      rewrite (local_loss_by_shapes _ _ _ _ _ _ _ Hs Hs' Hc). simpl.
      by rewrite Ha.
    + eexists _, _. split; [apply Hsum|]. split; [apply Hsum|done].
  - unfold local_loss_by. simpl.
    rewrite (sums_to_whole _ _ (Hsum _)).
    + rewrite (sums_to_whole _ _ (Hsum _)).
      * vm_compute. reflexivity.
      * repeat constructor.
      * vm_compute. lia.
    + repeat constructor.
    + vm_compute. lia.
Qed.

End LossFuncBy.

Section WorkedAnyOrder.
Import Reference Sample.

(** Adding from the left, on the one worker of its group. *)
Lemma loss_func_masked_mean_any_order_witness :
  (∃ loss a,
     @loss_func_by _ (runtime alone) torch_sum mask_1010 losses_1234
     = Ok (loss, {["lm loss" := a]})
     ∧ is_masked_mean mask_1010 4 losses_1234 4 (1 * 4) loss)
  ∧ local_loss_by torch_sum mask_1010 losses_1234 = Ok (f32_of_Z 2).
Proof.
  apply (@loss_func_masked_mean_any_order _ (runtime alone) torch_sum
           mask_1010 losses_1234 1 4 1 4).
  - apply torch_sum_summation.
  - split; [reflexivity | repeat constructor].
  - split; [reflexivity | repeat constructor].
  - reflexivity.
  - intros l. eexists _, _. reflexivity.
Defined.

End WorkedAnyOrder.
